(** * Alarma.ino: an ESP32 access point with a three-route alarm web server

    The sketch is embedded as interaction trees over the calls it makes to
    the Arduino core (GPIO, timing, serial), to the WiFi driver and to the
    WebServer library.  A handler gives those calls their meaning on an
    explicit device state, and a fuel-indexed executor runs a tree on a state
    while recording, action by action, the levels held by the GPIO pins. *)

From Stdlib Require Import ZArith String Ascii List Lia Bool.
From stdpp Require Import base gmap.
From ITree Require Import ITree ITreeFacts Events.State Events.StateFacts.
From Paco Require Import paco.
From Stdlib Require Import Morphisms.
Import ListNotations.
Local Open Scope string_scope.
Local Open Scope list_scope.
Local Open Scope Z_scope.
Local Open Scope itree_scope.

(** Sequencing of platform calls, written as in the sketch. *)
Notation "x <- t1 ;; t2" := (ITree.bind t1 (fun x => t2))
  (at level 100, t1 at next level, right associativity) : itree_scope.
Notation "t1 ;; t2" := (ITree.bind t1 (fun _ => t2))
  (at level 100, right associativity) : itree_scope.

(** ** Arduino core vocabulary *)

(** [HIGH] and [LOW], the two levels of a digital line. *)
Inductive Level : Type := LOW | HIGH.

(** The only pin mode the sketch uses. *)
Inductive Mode : Type := OUTPUT.

Definition IPAddress : Type := (Z * Z * Z * Z)%type.

(** The three callbacks registered with [server.on]: the named function
    [handleRoot] and the two lambdas given for [/on] and [/off]. *)
Inductive callback : Type := cb_handleRoot | cb_on | cb_off.

(** ** Global constants of the sketch *)

Definition ssid : string := "Alarma".
Definition password : string := "contrasenasegura".
Definition server_port : Z := 80.
Definition led1 : Z := 27.
Definition led2 : Z := 26.
Definition buzzer : Z := 25.

(** ** Calls into the platform *)

Variant ioE : Type -> Type :=
| PinMode (pin : Z) (m : Mode) : ioE unit
| DigitalWrite (pin : Z) (v : Level) : ioE unit
| Delay (ms : Z) : ioE unit
| SerialBegin (baud : Z) : ioE unit
| SerialPrint (s : string) : ioE unit
| SerialPrintln (s : string) : ioE unit
| SerialPrintlnIP (ip : IPAddress) : ioE unit
| WiFiSoftAP (name pass : string) : ioE bool
| WiFiSoftAPIP : ioE IPAddress
| ServerOn (uri : string) (cb : callback) : ioE unit
| ServerSendHeader (name value : string) : ioE unit
| ServerSend (code : Z) (content_type : option string) (content : string) : ioE unit
| ServerBegin : ioE unit.

(** The calls under the names the sketch uses. *)
Definition pinMode (pin : Z) (m : Mode) : itree ioE unit :=
  ITree.trigger (PinMode pin m).
Definition digitalWrite (pin : Z) (v : Level) : itree ioE unit :=
  ITree.trigger (DigitalWrite pin v).
Definition delay (ms : Z) : itree ioE unit :=
  ITree.trigger (Delay ms).
Definition Serial_begin (baud : Z) : itree ioE unit :=
  ITree.trigger (SerialBegin baud).
Definition Serial_print (s : string) : itree ioE unit :=
  ITree.trigger (SerialPrint s).
Definition Serial_println (s : string) : itree ioE unit :=
  ITree.trigger (SerialPrintln s).
Definition Serial_println_ip (ip : IPAddress) : itree ioE unit :=
  ITree.trigger (SerialPrintlnIP ip).
Definition WiFi_softAP (name pass : string) : itree ioE bool :=
  ITree.trigger (WiFiSoftAP name pass).
Definition WiFi_softAPIP : itree ioE IPAddress :=
  ITree.trigger WiFiSoftAPIP.
Definition server_on (uri : string) (cb : callback) : itree ioE unit :=
  ITree.trigger (ServerOn uri cb).
Definition server_sendHeader (name value : string) : itree ioE unit :=
  ITree.trigger (ServerSendHeader name value).
Definition server_send (code : Z) (content_type : option string)
    (content : string) : itree ioE unit :=
  ITree.trigger (ServerSend code content_type content).
Definition server_begin : itree ioE unit :=
  ITree.trigger ServerBegin.

(** ** Control structures *)

(** [for (int i = lo; i < hi; i++) body].  The counter of the sketch's only
    [for] loop stays within 0..3, far from the limits of [int]. *)
Definition for_lt (lo hi : Z) (body : Z -> itree ioE unit) : itree ioE unit :=
  ITree.iter
    (fun i : Z =>
       if i <? hi then body i ;; Ret (inl (i + 1)) else Ret (inr tt))
    lo.

(** [while (cond) body]. *)
Definition while_ (cond : itree ioE bool) (body : itree ioE unit)
  : itree ioE unit :=
  ITree.iter
    (fun _ : unit =>
       c <- cond ;;
       if c : bool then body ;; Ret (inl tt) else Ret (inr tt))
    tt.

(** ** The sketch *)

(** [handleRoot]: the page is assembled by successive [html += ...]. *)
Definition root_html : string :=
  (let html := "<!DOCTYPE html><html><head><meta charset='UTF-8'><title>Control</title></head>" in
  let html := html ++ "<body style='margin: 0; height: 100vh; display: flex; flex-direction: column; justify-content: center; align-items: center;" in
  let html := html ++ "background: linear-gradient(to right, #0b2e13, #1d6b2f); font-family: Arial, sans-serif;'>" in
  let html := html ++ "<h1 style='color: white; font-size: 60px; margin-bottom: 40px;'>Control de Alarma</h1>" in
  let html := html ++ "<p><a href='/on'><button style='padding: 20px 40px; font-size: 40px; border-radius: 30px; margin: 20px;'>ON</button></a></p>" in
  let html := html ++ "<p><a href='/off'><button style='padding: 20px 40px; font-size: 40px; border-radius: 30px; margin: 20px;'>OFF</button></a></p>" in
  let html := html ++ "</body></html>" in
  html)%string.

Definition handleRoot : itree ioE unit :=
  server_send 200 (Some "text/html") root_html.

(** The body of the [for] statement of the [/on] lambda. *)
Definition alarm_body : itree ioE unit :=
  digitalWrite led1 HIGH ;;
  digitalWrite led2 LOW ;;
  digitalWrite buzzer HIGH ;;
  delay 500 ;;
  digitalWrite led1 LOW ;;
  digitalWrite led2 HIGH ;;
  digitalWrite buzzer LOW ;;
  delay 500.

(** [for (int i = 0; i < 3; i++) { ... }]: the three repetitions. *)
Definition alarm_loop : itree ioE unit :=
  for_lt 0 3 (fun _ => alarm_body).

(** The lambda registered for [/on]; [server.send(303)] leaves the content
    type and the content to their defaults (no type, empty content). *)
Definition on_handler : itree ioE unit :=
  alarm_loop ;;
  digitalWrite led1 HIGH ;;
  digitalWrite buzzer HIGH ;;
  delay 500 ;;
  server_sendHeader "Location" "/" ;;
  server_send 303 None EmptyString.

(** The lambda registered for [/off]. *)
Definition off_handler : itree ioE unit :=
  digitalWrite led1 LOW ;;
  digitalWrite led2 LOW ;;
  digitalWrite buzzer LOW ;;
  server_sendHeader "Location" "/" ;;
  server_send 303 None EmptyString.

Definition callback_body (cb : callback) : itree ioE unit :=
  match cb with
  | cb_handleRoot => handleRoot
  | cb_on => on_handler
  | cb_off => off_handler
  end.

(** The two serial messages of [setup] that carry accented letters, byte by
    byte as the UTF-8 source has them. *)
Definition msg_ap_error : string := "Error al crear el Access Point.".
Definition msg_ap_ip : string :=
  ("Direcci" ++ String "195"%char (String "179"%char "n IP del AP: "))%string.
Definition msg_started : string := "Servidor HTTP iniciado".

Definition setup : itree ioE unit :=
  pinMode led1 OUTPUT ;;
  pinMode led2 OUTPUT ;;
  pinMode buzzer OUTPUT ;;
  Serial_begin 115200 ;;
  ap_created <- WiFi_softAP ssid password ;;
  (if negb ap_created then
     Serial_println msg_ap_error ;;
     while_ (Ret true) (Ret tt)
   else Ret tt) ;;
  myIP <- WiFi_softAPIP ;;
  Serial_print msg_ap_ip ;;
  Serial_println_ip myIP ;;
  server_on "/" cb_handleRoot ;;
  server_on "/on" cb_on ;;
  server_on "/off" cb_off ;;
  server_begin ;;
  Serial_println msg_started.

(** ** The device the sketch runs on *)

(** What [server.send] hands to the client: the status code, the content
    type and content it was given, and the headers queued through
    [server.sendHeader] since the previous response. *)
Record response : Type := mkResponse {
  status : Z;
  content_type : option string;
  headers : list (string * string);
  body : string
}.

Inductive serial_item : Type :=
| Text (s : string)
| Line (s : string)
| LineIP (ip : IPAddress).

Record device : Type := mkDevice {
  pins : gmap Z Level;                  (* level driven on each GPIO line *)
  modes : gmap Z Mode;
  uptime : Z;                           (* milliseconds spent in [delay] *)
  baud : option Z;
  serial : list serial_item;            (* the diagnostic log, oldest first *)
  radio_ok : bool;                      (* whether the radio accepts softAP *)
  radio_ip : IPAddress;
  access_point : option (string * string);
  routes : list (string * callback);    (* in order of registration *)
  listening : option Z;                 (* the port, once [begin] was called *)
  out_headers : list (string * string); (* queued for the next response *)
  responses : list response             (* sent so far, oldest first *)
}.

Definition set_pins (f : gmap Z Level -> gmap Z Level) (d : device) : device :=
  mkDevice (f (pins d)) (modes d) (uptime d) (baud d) (serial d) (radio_ok d)
    (radio_ip d) (access_point d) (routes d) (listening d) (out_headers d)
    (responses d).
Definition set_modes (f : gmap Z Mode -> gmap Z Mode) (d : device) : device :=
  mkDevice (pins d) (f (modes d)) (uptime d) (baud d) (serial d) (radio_ok d)
    (radio_ip d) (access_point d) (routes d) (listening d) (out_headers d)
    (responses d).
Definition set_uptime (f : Z -> Z) (d : device) : device :=
  mkDevice (pins d) (modes d) (f (uptime d)) (baud d) (serial d) (radio_ok d)
    (radio_ip d) (access_point d) (routes d) (listening d) (out_headers d)
    (responses d).
Definition set_baud (b : option Z) (d : device) : device :=
  mkDevice (pins d) (modes d) (uptime d) b (serial d) (radio_ok d)
    (radio_ip d) (access_point d) (routes d) (listening d) (out_headers d)
    (responses d).
Definition set_serial (f : list serial_item -> list serial_item) (d : device)
  : device :=
  mkDevice (pins d) (modes d) (uptime d) (baud d) (f (serial d)) (radio_ok d)
    (radio_ip d) (access_point d) (routes d) (listening d) (out_headers d)
    (responses d).
Definition set_access_point (a : option (string * string)) (d : device)
  : device :=
  mkDevice (pins d) (modes d) (uptime d) (baud d) (serial d) (radio_ok d)
    (radio_ip d) a (routes d) (listening d) (out_headers d) (responses d).
Definition set_routes
    (f : list (string * callback) -> list (string * callback)) (d : device)
  : device :=
  mkDevice (pins d) (modes d) (uptime d) (baud d) (serial d) (radio_ok d)
    (radio_ip d) (access_point d) (f (routes d)) (listening d) (out_headers d)
    (responses d).
Definition set_listening (l : option Z) (d : device) : device :=
  mkDevice (pins d) (modes d) (uptime d) (baud d) (serial d) (radio_ok d)
    (radio_ip d) (access_point d) (routes d) l (out_headers d) (responses d).
Definition set_out_headers
    (f : list (string * string) -> list (string * string)) (d : device)
  : device :=
  mkDevice (pins d) (modes d) (uptime d) (baud d) (serial d) (radio_ok d)
    (radio_ip d) (access_point d) (routes d) (listening d) (f (out_headers d))
    (responses d).
Definition set_responses (f : list response -> list response) (d : device)
  : device :=
  mkDevice (pins d) (modes d) (uptime d) (baud d) (serial d) (radio_ok d)
    (radio_ip d) (access_point d) (routes d) (listening d) (out_headers d)
    (f (responses d)).

(** The meaning of one platform call: the device afterwards and the value
    the call returns to the sketch. *)
Definition handle {T : Type} (e : ioE T) (d : device) : device * T :=
  match e in ioE T0 return device * T0 with
  | PinMode pin m => (set_modes (insert pin m) d, tt)
  | DigitalWrite pin v => (set_pins (insert pin v) d, tt)
  | Delay ms => (set_uptime (fun t => t + ms) d, tt)
  | SerialBegin b => (set_baud (Some b) d, tt)
  | SerialPrint s => (set_serial (fun l => l ++ [Text s]) d, tt)
  | SerialPrintln s => (set_serial (fun l => l ++ [Line s]) d, tt)
  | SerialPrintlnIP ip => (set_serial (fun l => l ++ [LineIP ip]) d, tt)
  | WiFiSoftAP name pass =>
      if radio_ok d then (set_access_point (Some (name, pass)) d, true)
      else (d, false)
  | WiFiSoftAPIP => (d, radio_ip d)
  | ServerOn uri cb => (set_routes (fun l => l ++ [(uri, cb)]) d, tt)
  | ServerSendHeader name value =>
      (set_out_headers (fun l => l ++ [(name, value)]) d, tt)
  | ServerSend code ct content =>
      (set_out_headers (fun _ => [])
         (set_responses
            (fun l => l ++ [mkResponse code ct (out_headers d) content]) d),
       tt)
  | ServerBegin => (set_listening (Some server_port) d, tt)
  end.

(** ** Running a tree on a device *)

(** A platform call stripped of its return type, for traces. *)
Definition action : Type := sigT ioE.
Definition call {T : Type} (e : ioE T) : action := @existT Type ioE T e.

(** The outcome of a run: each call made, paired with the pin levels in
    force right after it; the device reached; and the value returned, or
    [None] when the run was still going after [fuel] steps. *)
Record outcome (R : Type) : Type := mkOutcome {
  trace : list (action * gmap Z Level);
  final : device;
  result : option R
}.
Arguments mkOutcome {R} _ _ _.
Arguments trace {R} _.
Arguments final {R} _.
Arguments result {R} _.

Definition after {R : Type} (a : action) (p : gmap Z Level) (o : outcome R)
  : outcome R :=
  mkOutcome ((a, p) :: trace o) (final o) (result o).

(** One unit of fuel pays for one platform call or for one jump back to the
    head of a loop; returning is free. *)
Fixpoint exec {R : Type} (fuel : nat) (t : itree ioE R) (d : device)
  : outcome R :=
  match observe t with
  | RetF r => mkOutcome [] d (Some r)
  | TauF t' =>
      match fuel with
      | O => mkOutcome [] d None
      | S f => exec f t' d
      end
  | VisF e k =>
      match fuel with
      | O => mkOutcome [] d None
      | S f =>
          let (d', x) := handle e d in
          after (call e) (pins d') (exec f (k x) d')
      end
  end.

(** [tr] happened first, then the run [o]. *)
Definition preceded_by {R : Type} (tr : list (action * gmap Z Level))
    (o : outcome R) : outcome R :=
  mkOutcome (tr ++ trace o) (final o) (result o).

(** The same device semantics as a handler for the library's interpreter. *)
Definition h_device : ioE ~> Monads.stateT device (itree void1) :=
  fun _ e d => Ret (handle e d).

(** ** Observations on pins and traces *)

Definition Level_eqb (a b : Level) : bool :=
  match a, b with
  | LOW, LOW | HIGH, HIGH => true
  | _, _ => false
  end.

(** Indicator A and indicator B hold opposite levels and the audible line
    holds the level of indicator A. *)
Definition alternating (p : gmap Z Level) : bool :=
  match p !! led1, p !! led2, p !! buzzer with
  | Some a, Some b, Some z => negb (Level_eqb a b) && Level_eqb z a
  | _, _, _ => false
  end.

Definition is_delay (a : action) : bool :=
  match projT2 a with
  | Delay _ => true
  | _ => false
  end.

Definition is_write (a : action) : bool :=
  match projT2 a with
  | DigitalWrite _ _ => true
  | _ => false
  end.

Definition writes_pin (pin : Z) (a : action) : bool :=
  match projT2 a with
  | DigitalWrite p _ => p =? pin
  | _ => false
  end.

(** Calls that register a route or start the server. *)
Definition is_server_setup (a : action) : bool :=
  match projT2 a with
  | ServerOn _ _ | ServerBegin => true
  | _ => false
  end.

Definition is_softAP (a : action) : bool :=
  match projT2 a with
  | WiFiSoftAP _ _ => true
  | _ => false
  end.

(** [contains needle s]: [needle] occurs in [s]. *)
Fixpoint contains (needle s : string) : bool :=
  String.prefix needle s ||
  match s with
  | EmptyString => false
  | String _ s' => contains needle s'
  end.

(** ** What the handlers amount to *)

(** The three lines written in the order the sketch writes them. *)
Definition phase (a b z : Level) (p : gmap Z Level) : gmap Z Level :=
  <[buzzer := z]> (<[led2 := b]> (<[led1 := a]> p)).

(** Three writes and a pause, with the levels in force after each step. *)
Definition half_trace (a b z : Level) (p : gmap Z Level)
  : list (action * gmap Z Level) :=
  [ (call (DigitalWrite led1 a), <[led1 := a]> p);
    (call (DigitalWrite led2 b), <[led2 := b]> (<[led1 := a]> p));
    (call (DigitalWrite buzzer z), phase a b z p);
    (call (Delay 500), phase a b z p) ].

(** One repetition of the loop body. *)
Definition blink_pins (p : gmap Z Level) : gmap Z Level :=
  phase LOW HIGH LOW (phase HIGH LOW HIGH p).

Definition blink_trace (p : gmap Z Level) : list (action * gmap Z Level) :=
  half_trace HIGH LOW HIGH p ++ half_trace LOW HIGH LOW (phase HIGH LOW HIGH p).

Definition blink_device (d : device) : device :=
  set_uptime (fun t => t + 500 + 500) (set_pins blink_pins d).

(** The three repetitions. *)
Definition loop_trace (p : gmap Z Level) : list (action * gmap Z Level) :=
  blink_trace p ++ blink_trace (blink_pins p)
    ++ blink_trace (blink_pins (blink_pins p)).

Definition loop_device (d : device) : device :=
  blink_device (blink_device (blink_device d)).

(** The closing phase of [/on], which writes two of the three lines. *)
Definition steady_pins (p : gmap Z Level) : gmap Z Level :=
  <[buzzer := HIGH]> (<[led1 := HIGH]> p).

Definition steady_trace (p : gmap Z Level) : list (action * gmap Z Level) :=
  [ (call (DigitalWrite led1 HIGH), <[led1 := HIGH]> p);
    (call (DigitalWrite buzzer HIGH), steady_pins p);
    (call (Delay 500), steady_pins p) ].

(** The redirection both lambdas end with. *)
Definition redirect_trace (p : gmap Z Level) : list (action * gmap Z Level) :=
  [ (call (ServerSendHeader "Location" "/"), p);
    (call (ServerSend 303 None EmptyString), p) ].

Definition redirect_device (d : device) : device :=
  set_out_headers (fun _ => [])
    (set_responses
       (fun l => l ++ [mkResponse 303 None (out_headers d ++ [("Location", "/")])
                   EmptyString])
       d).

Definition on_device (d : device) : device :=
  redirect_device
    (set_uptime (fun t => t + 500) (set_pins steady_pins (loop_device d))).

Definition on_trace (p : gmap Z Level) : list (action * gmap Z Level) :=
  let p3 := blink_pins (blink_pins (blink_pins p)) in
  loop_trace p ++ steady_trace p3 ++ redirect_trace (steady_pins p3).

Definition off_device (d : device) : device :=
  redirect_device (set_pins (phase LOW LOW LOW) d).

Definition off_trace (p : gmap Z Level) : list (action * gmap Z Level) :=
  [ (call (DigitalWrite led1 LOW), <[led1 := LOW]> p);
    (call (DigitalWrite led2 LOW), <[led2 := LOW]> (<[led1 := LOW]> p));
    (call (DigitalWrite buzzer LOW), phase LOW LOW LOW p) ]
  ++ redirect_trace (phase LOW LOW LOW p).

Definition root_device (d : device) : device :=
  set_out_headers (fun _ => [])
    (set_responses
       (fun l => l ++ [mkResponse 200 (Some "text/html") (out_headers d) root_html])
       d).

(** ** The alarm sequence as the specification words it *)

(** Indicator A high, indicator B low, audible line high, pause. *)
Definition first_half : list action :=
  [ call (DigitalWrite led1 HIGH); call (DigitalWrite led2 LOW);
    call (DigitalWrite buzzer HIGH); call (Delay 500) ].

(** Indicator A low, indicator B high, audible line low, pause. *)
Definition second_half : list action :=
  [ call (DigitalWrite led1 LOW); call (DigitalWrite led2 HIGH);
    call (DigitalWrite buzzer LOW); call (Delay 500) ].

(** Indicator A high, audible line high, pause. *)
Definition closing_phase : list action :=
  [ call (DigitalWrite led1 HIGH); call (DigitalWrite buzzer HIGH);
    call (Delay 500) ].

Definition repetition : list action := first_half ++ second_half.

Definition alarm_sequence : list action :=
  repetition ++ repetition ++ repetition ++ closing_phase.

Definition redirect_calls : list action :=
  [ call (ServerSendHeader "Location" "/");
    call (ServerSend 303 None EmptyString) ].

(** The level of the last write to [pin] among [l], if any. *)
Fixpoint last_write (pin : Z) (l : list action) : option Level :=
  match l with
  | [] => None
  | a :: l' =>
      match last_write pin l' with
      | Some v => Some v
      | None =>
          match projT2 a with
          | DigitalWrite p v => if p =? pin then Some v else None
          | _ => None
          end
      end
  end.

(** A device whose three output lines are all low, as [/off] leaves them. *)
Definition quiet_device : device :=
  mkDevice (phase LOW LOW LOW ∅) ∅ 0 None [] true (192, 168, 4, 1) None []
    None [] [].

(** A device whose radio refuses to create the access point. *)
Definition deaf_device : device :=
  mkDevice ∅ ∅ 0 None [] false (0, 0, 0, 0) None [] None [] [].

(** ** Callbacks as the server runs them *)

Definition is_send (a : action) : bool :=
  match projT2 a with
  | ServerSend _ _ _ => true
  | _ => false
  end.

(** The calls a callback of this sketch makes: pin writes, pauses, and the
    two calls that build a response. *)
Definition is_handler_call (a : action) : bool :=
  match projT2 a with
  | DigitalWrite _ _ | Delay _ | ServerSendHeader _ _ | ServerSend _ _ _ => true
  | _ => false
  end.

(** What a whole run of each callback amounts to. *)
Definition callback_trace (cb : callback) (p : gmap Z Level)
  : list (action * gmap Z Level) :=
  match cb with
  | cb_handleRoot =>
      [(call (ServerSend 200 (Some "text/html") root_html), p)]
  | cb_on => on_trace p
  | cb_off => off_trace p
  end.

Definition callback_device (cb : callback) (d : device) : device :=
  match cb with
  | cb_handleRoot => root_device d
  | cb_on => on_device d
  | cb_off => off_device d
  end.

(** The milliseconds a callback spends in [delay]. *)
Definition callback_time (cb : callback) : Z :=
  match cb with
  | cb_on => 3500
  | cb_handleRoot | cb_off => 0
  end.

(** The level a callback leaves on the three lines, if it drives them. *)
Definition requested_level (cb : callback) : option Level :=
  match cb with
  | cb_on => Some HIGH
  | cb_off => Some LOW
  | cb_handleRoot => None
  end.

(** The level requested by the last of [cbs] that drives the lines. *)
Fixpoint last_alarm (cbs : list callback) : option Level :=
  match cbs with
  | [] => None
  | cb :: rest =>
      match last_alarm rest with
      | Some v => Some v
      | None => requested_level cb
      end
  end.

Definition set_lines (v : option Level) (p : gmap Z Level) : gmap Z Level :=
  match v with
  | Some l => phase l l l p
  | None => p
  end.

(** Requests served one after the other, each callback run to its end
    before the next starts. *)
Fixpoint serve_all (cbs : list callback) : itree ioE unit :=
  match cbs with
  | [] => Ret tt
  | cb :: rest => callback_body cb ;; serve_all rest
  end.

(** The part of the device that [setup] configures. *)
Definition config (d : device)
  : gmap Z Mode * option Z * list serial_item * option (string * string)
    * list (string * callback) * option Z :=
  (modes d, baud d, serial d, access_point d, routes d, listening d).

(** The milliseconds of pause in [tr] during which [pin] was high. *)
Fixpoint paused_high (pin : Z) (tr : list (action * gmap Z Level)) : Z :=
  match tr with
  | [] => 0
  | (a, p) :: tr' =>
      match projT2 a with
      | Delay ms =>
          match p !! pin with
          | Some HIGH => ms
          | _ => 0
          end
      | _ => 0
      end + paused_high pin tr'
  end.

(** The length of one pause if the line is high during it. *)
Definition ms_if_high (v : Level) : Z :=
  match v with
  | HIGH => 500
  | LOW => 0
  end.

(** The three routes of the sketch, in the order [setup] registers them. *)
Definition sketch_routes : list (string * callback) :=
  [("/", cb_handleRoot); ("/on", cb_on); ("/off", cb_off)].

(** A freshly reset device with a working radio. *)
Definition fresh_device : device :=
  mkDevice ∅ ∅ 0 None [] true (192, 168, 4, 1) None [] None [] [].

(** The milliseconds of pause among [l]. *)
Fixpoint total_delay (l : list action) : Z :=
  match l with
  | [] => 0
  | a :: l' =>
      match projT2 a with
      | Delay ms => ms
      | _ => 0
      end + total_delay l'
  end.

(** ** The executor and strong bisimulation *)

Lemma exec_eq_itree {R : Type} (n : nat) :
  forall (t t' : itree ioE R) (d : device), t ≅ t' -> exec n t d = exec n t' d.
Proof.
  induction n as [|n IH]; intros t t' d H; punfold H; red in H; simpl;
    destruct H; try discriminate; subst; pclearbot; auto.
  destruct (handle e d) as [d' x]. f_equal. apply IH, REL.
Qed.

#[global] Instance exec_Proper {R : Type} (n : nat) :
  Proper (eq_itree eq ==> eq ==> eq) (@exec R n).
Proof. intros t t' H d d' <-. now apply exec_eq_itree. Qed.

Lemma exec_unfold {R : Type} n (t : itree ioE R) d :
  exec n t d =
  match observe t with
  | RetF r => mkOutcome [] d (Some r)
  | TauF t' =>
      match n with
      | O => mkOutcome [] d None
      | S f => exec f t' d
      end
  | VisF e k =>
      match n with
      | O => mkOutcome [] d None
      | S f =>
          let (d', x) := handle e d in
          after (call e) (pins d') (exec f (k x) d')
      end
  end.
Proof. destruct n; reflexivity. Qed.

Lemma exec_Ret {R : Type} n (r : R) d :
  exec n (Ret r) d = mkOutcome [] d (Some r).
Proof. destruct n; reflexivity. Qed.

Lemma exec_Tau {R : Type} n (t : itree ioE R) d :
  exec (S n) (Tau t) d = exec n t d.
Proof. reflexivity. Qed.

Lemma exec_Vis {R T : Type} n (e : ioE T) (k : T -> itree ioE R) d :
  exec (S n) (Vis e k) d =
  after (call e) (pins (fst (handle e d)))
    (exec n (k (snd (handle e d))) (fst (handle e d))).
Proof. simpl. destruct (handle e d); reflexivity. Qed.

Lemma exec_trigger_bind {R T : Type} n (e : ioE T) (k : T -> itree ioE R) d :
  exec (S n) (ITree.bind (ITree.trigger e) k) d =
  after (call e) (pins (fst (handle e d)))
    (exec n (k (snd (handle e d))) (fst (handle e d))).
Proof. rewrite bind_trigger. apply exec_Vis. Qed.

Lemma exec_trigger {T : Type} n (e : ioE T) d :
  exec (S n) (ITree.trigger e) d =
  mkOutcome [(call e, pins (fst (handle e d)))] (fst (handle e d))
    (Some (snd (handle e d))).
Proof. unfold ITree.trigger. rewrite exec_Vis, exec_Ret. reflexivity. Qed.

(** More fuel does not change a run that has returned. *)
Lemma exec_mono {R : Type} (n m : nat) :
  forall (t : itree ioE R) (d : device) (r : R),
    result (exec n t d) = Some r -> exec (n + m) t d = exec n t d.
Proof.
  induction n as [|n IH]; intros t d r.
  - rewrite (exec_unfold (0 + m)), (exec_unfold 0).
    destruct (observe t); try discriminate; reflexivity.
  - simpl. destruct (observe t) as [r'|t'|T e k]; [reflexivity| |].
    + intros H. now apply IH with r.
    + destruct (handle e d) as [d' x]. cbn. intros H. f_equal.
      now apply IH with r.
Qed.

(** A run that is out of fuel stays so with less. *)
Lemma exec_still_running {R : Type} (n m : nat) (t : itree ioE R) (d : device) :
  result (exec n t d) = None -> result (exec (n - m) t d) = None.
Proof.
  intros H. destruct (result (exec (n - m) t d)) as [r|] eqn:E; [|reflexivity].
  assert (Hm : exec ((n - m) + (n - (n - m))) t d = exec (n - m) t d)
    by now apply exec_mono with r.
  replace (n - m + (n - (n - m)))%nat with n in Hm by lia.
  rewrite Hm, E in H. discriminate.
Qed.

(** The trace of a shorter run is a prefix of the trace of a longer one. *)
Lemma exec_prefix {R : Type} (n m : nat) :
  forall (t : itree ioE R) (d : device),
    exists l, trace (exec (n + m) t d) = trace (exec n t d) ++ l.
Proof.
  induction n as [|n IH]; intros t d.
  - exists (trace (exec (0 + m) t d)).
    simpl. destruct (observe t); reflexivity.
  - simpl. destruct (observe t) as [r|t'|T e k].
    + now exists [].
    + apply IH.
    + destruct (handle e d) as [d' x]. cbn.
      destruct (IH (k x) d') as [l Hl]. exists l. now rewrite Hl.
Qed.

(** Agreement with the library's interpreter: a run that returns within
    some fuel is a run that returns. *)
Lemma exec_sound {R : Type} (n : nat) :
  forall (t : itree ioE R) (d : device) (r : R),
    result (exec n t d) = Some r ->
    interp_state h_device t d ≈ Ret (final (exec n t d), r).
Proof.
  induction n as [|n IH]; intros t d r; rewrite (itree_eta t); simpl;
    destruct (observe t); try discriminate.
  - intros [= ->]. rewrite interp_state_ret. reflexivity.
  - intros [= ->]. rewrite interp_state_ret. reflexivity.
  - intros H. rewrite interp_state_tau, tau_eutt. now apply IH.
  - intros H. rewrite interp_state_vis. unfold h_device at 1.
    rewrite bind_ret_l, tau_eutt. destruct (handle e d) as [d' x].
    cbn in *. now apply IH.
Qed.

(** And a run that is still going whatever the fuel is a run that never
    returns. *)
Lemma exec_diverges_spin {R : Type} :
  forall (t : itree ioE R) (d : device),
    (forall n, result (exec n t d) = None) ->
    interp_state h_device t d ≅ ITree.spin.
Proof.
  ginit. gcofix CIH. intros t d H.
  rewrite (itree_eta t). destruct (observe t) as [r0|t0|T e k] eqn:E.
  - specialize (H 0%nat). rewrite exec_unfold, E in H. discriminate.
  - rewrite interp_state_tau, (itree_eta ITree.spin). cbn.
    gstep. constructor. gbase. apply CIH. intros n.
    specialize (H (S n)). now rewrite exec_unfold, E in H.
  - rewrite interp_state_vis.
    change (h_device T e d) with (Ret (handle e d) : itree void1 (device * T)).
    rewrite bind_ret_l.
    rewrite (itree_eta ITree.spin). cbn.
    gstep. constructor. gbase. apply CIH. intros n.
    specialize (H (S n)). rewrite exec_unfold, E in H.
    destruct (handle e d) as [d' x]. exact H.
Qed.

(** ** Sequencing *)

(** If [t] returns [r] within [n] and [k r] returns within [m], then
    [t ;; k] returns within [n + m], its trace the two traces in a row. *)
Lemma exec_bind {R U : Type} (n m : nat) (k : R -> itree ioE U) :
  forall (t : itree ioE R) (d : device) (r : R),
    result (exec n t d) = Some r ->
    result (exec m (k r) (final (exec n t d))) <> None ->
    exec (n + m) (ITree.bind t k) d =
    preceded_by (trace (exec n t d)) (exec m (k r) (final (exec n t d))).
Proof.
  assert (Hret : forall j (t : itree ioE R) d r,
             observe t = RetF r ->
             result (exec m (k r) d) <> None ->
             exec (j + m) (ITree.bind t k) d = exec m (k r) d).
  { intros j t d r Ht Hk. rewrite (itree_eta t), Ht, bind_ret_l.
    destruct (result (exec m (k r) d)) as [s|] eqn:E; [|congruence].
    rewrite Nat.add_comm. now apply exec_mono with s. }
  induction n as [|n IH]; intros t d r.
  - rewrite (exec_unfold 0 t). destruct (observe t) eqn:Ht; try discriminate.
    cbn [result final trace]. intros [= ->] Hk. rewrite (Hret 0%nat t d r Ht Hk).
    now destruct (exec m (k r) d).
  - rewrite (exec_unfold (S n) t). destruct (observe t) as [r'|t'|T e h] eqn:Ht.
    + cbn [result final trace]. intros [= ->] Hk.
      rewrite (Hret (S n) t d r Ht Hk).
      now destruct (exec m (k r) d).
    + intros Hr Hk. rewrite (itree_eta t), Ht, bind_tau. cbn [Nat.add].
      rewrite exec_Tau. now apply IH.
    + rewrite (itree_eta t), Ht, bind_vis. cbn [Nat.add]. rewrite exec_Vis.
      destruct (handle e d) as [d' x]. cbn. intros Hr Hk.
      rewrite (IH (h x) d' r Hr Hk). reflexivity.
Qed.

(** A run that is out of fuel inside [t] is out of fuel inside [t ;; k]. *)
Lemma exec_bind_running {R U : Type} (n : nat) (k : R -> itree ioE U) :
  forall (t : itree ioE R) (d : device),
    result (exec n t d) = None ->
    exec n (ITree.bind t k) d =
    mkOutcome (trace (exec n t d)) (final (exec n t d)) None.
Proof.
  induction n as [|n IH]; intros t d; rewrite (exec_unfold _ t);
    destruct (observe t) as [r|t'|T e h] eqn:Ht; try discriminate; intros Hr;
    rewrite (itree_eta t), Ht.
  - rewrite bind_tau. reflexivity.
  - rewrite bind_vis. reflexivity.
  - rewrite bind_tau, exec_Tau. now apply IH.
  - rewrite bind_vis, exec_Vis. destruct (handle e d) as [d' x].
    cbn in *. now rewrite IH.
Qed.

Lemma exec_trigger_bind_O {R T : Type} (e : ioE T) (k : T -> itree ioE R) d :
  exec 0 (ITree.bind (ITree.trigger e) k) d = mkOutcome [] d None.
Proof. rewrite bind_trigger. reflexivity. Qed.

(** One step of a straight-line run. *)
Ltac exec_step :=
  first [ rewrite exec_trigger_bind | rewrite exec_trigger
        | rewrite exec_Tau | rewrite exec_Ret ];
  cbn [handle fst snd].

(** ** Loops *)

Lemma for_lt_unfold (lo hi : Z) (body : Z -> itree ioE unit) :
  for_lt lo hi body ≅
  if lo <? hi then body lo ;; Tau (for_lt (lo + 1) hi body) else Ret tt.
Proof.
  unfold for_lt at 1. rewrite unfold_iter.
  destruct (lo <? hi).
  - rewrite bind_bind. setoid_rewrite bind_ret_l. reflexivity.
  - rewrite bind_ret_l. reflexivity.
Qed.

Lemma for_lt_done (lo hi : Z) (body : Z -> itree ioE unit) n d :
  (lo <? hi) = false ->
  exec n (for_lt lo hi body) d = mkOutcome [] d (Some tt).
Proof. intros H. rewrite for_lt_unfold, H. apply exec_Ret. Qed.

Lemma for_lt_step (lo hi : Z) (body : Z -> itree ioE unit) n m d :
  (lo <? hi) = true ->
  result (exec n (body lo) d) = Some tt ->
  result (exec m (for_lt (lo + 1) hi body) (final (exec n (body lo) d))) <> None ->
  exec (n + S m) (for_lt lo hi body) d =
  preceded_by (trace (exec n (body lo) d))
    (exec m (for_lt (lo + 1) hi body) (final (exec n (body lo) d))).
Proof.
  intros H Hb Hr. rewrite for_lt_unfold, H.
  rewrite (exec_bind n (S m) _ (body lo) d tt Hb); rewrite exec_Tau; auto.
Qed.

(** [while (true);] never gets anywhere. *)
Lemma while_true_running (n : nat) (d : device) :
  exec n (while_ (Ret true) (Ret tt)) d = mkOutcome [] d None.
Proof.
  induction n as [|n IH]; unfold while_; rewrite unfold_iter, !bind_ret_l.
  - reflexivity.
  - rewrite exec_Tau. apply IH.
Qed.

(** ** Runs of the handlers *)

Lemma alarm_body_run (d : device) (fuel : nat) :
  exec (8 + fuel) alarm_body d =
  mkOutcome (blink_trace (pins d)) (blink_device d) (Some tt).
Proof.
  unfold alarm_body, digitalWrite, delay.
  cbn [Nat.add]. repeat exec_step. reflexivity.
Qed.

Lemma alarm_body_run0 (d : device) :
  exec 8 alarm_body d =
  mkOutcome (blink_trace (pins d)) (blink_device d) (Some tt).
Proof. exact (alarm_body_run d 0). Qed.

Lemma alarm_loop_run (d : device) (fuel : nat) :
  exec (27 + fuel) alarm_loop d =
  mkOutcome (loop_trace (pins d)) (loop_device d) (Some tt).
Proof.
  assert (L3 : forall d n,
             exec n (for_lt 3 3 (fun _ => alarm_body)) d =
             mkOutcome [] d (Some tt)).
  { intros. now apply for_lt_done. }
  assert (L2 : forall d n,
             exec (8 + S n) (for_lt 2 3 (fun _ => alarm_body)) d =
             mkOutcome (blink_trace (pins d)) (blink_device d) (Some tt)).
  { intros d2 n. rewrite for_lt_step; cbn beta;
      rewrite ?alarm_body_run0; cbn [result final trace];
      change (2 + 1) with 3; rewrite ?L3; easy. }
  assert (L1 : forall d n,
             exec (8 + S (8 + S n)) (for_lt 1 3 (fun _ => alarm_body)) d =
             mkOutcome (blink_trace (pins d) ++ blink_trace (blink_pins (pins d)))
               (blink_device (blink_device d)) (Some tt)).
  { intros d1 n. rewrite for_lt_step; cbn beta;
      rewrite ?alarm_body_run0; cbn [result final trace];
      change (1 + 1) with 2; rewrite ?L2; easy. }
  unfold alarm_loop.
  change (27 + fuel)%nat with (8 + S (8 + S (8 + S fuel)))%nat.
  rewrite for_lt_step; cbn beta;
    rewrite ?alarm_body_run0; cbn [result final trace];
    change (0 + 1) with 1; rewrite ?L1; easy.
Qed.

Lemma on_handler_run (d : device) (fuel : nat) :
  exec (32 + fuel) on_handler d =
  mkOutcome (on_trace (pins d)) (on_device d) (Some tt).
Proof.
  unfold on_handler.
  change (32 + fuel)%nat with (27 + (5 + fuel))%nat.
  assert (Htail : forall d',
    exec (5 + fuel)
      (digitalWrite led1 HIGH ;; digitalWrite buzzer HIGH ;; delay 500 ;;
       server_sendHeader "Location" "/" ;; server_send 303 None EmptyString) d' =
    mkOutcome (steady_trace (pins d') ++ redirect_trace (steady_pins (pins d')))
      (redirect_device (set_uptime (fun t => t + 500) (set_pins steady_pins d')))
      (Some tt)).
  { intros d'. unfold digitalWrite, delay, server_sendHeader, server_send.
    cbn [Nat.add]. repeat exec_step. reflexivity. }
  rewrite (exec_bind 27 (5 + fuel) _ alarm_loop d tt);
    rewrite ?(alarm_loop_run d 0); cbn [result final trace];
    rewrite ?Htail; easy.
Qed.

Lemma off_handler_run (d : device) (fuel : nat) :
  exec (5 + fuel) off_handler d =
  mkOutcome (off_trace (pins d)) (off_device d) (Some tt).
Proof.
  unfold off_handler, digitalWrite, server_sendHeader, server_send.
  cbn [Nat.add]. repeat exec_step. reflexivity.
Qed.

Lemma handleRoot_run (d : device) (fuel : nat) :
  exec (1 + fuel) handleRoot d =
  mkOutcome [(call (ServerSend 200 (Some "text/html") root_html), pins d)]
    (root_device d) (Some tt).
Proof.
  unfold handleRoot, server_send.
  cbn [Nat.add]. repeat exec_step. reflexivity.
Qed.

(** ** Pin levels after the sketch's writes *)

Lemma phase_led1 a b z (p : gmap Z Level) : phase a b z p !! led1 = Some a.
Proof.
  unfold phase, led1, led2, buzzer.
  rewrite !lookup_insert_ne by lia. apply lookup_insert_eq.
Qed.

Lemma phase_led2 a b z (p : gmap Z Level) : phase a b z p !! led2 = Some b.
Proof.
  unfold phase, led1, led2, buzzer.
  rewrite lookup_insert_ne by lia. apply lookup_insert_eq.
Qed.

Lemma phase_buzzer a b z (p : gmap Z Level) : phase a b z p !! buzzer = Some z.
Proof. unfold phase. apply lookup_insert_eq. Qed.

Lemma phase_other a b z (p : gmap Z Level) (pin : Z) :
  pin <> led1 -> pin <> led2 -> pin <> buzzer ->
  phase a b z p !! pin = p !! pin.
Proof. intros H1 H2 H3. unfold phase. now rewrite !lookup_insert_ne. Qed.

(** Writing the three lines overrides whatever an earlier [phase] wrote. *)
Lemma phase_phase a b z a' b' z' (p : gmap Z Level) :
  phase a b z (phase a' b' z' p) = phase a b z p.
Proof.
  apply map_eq. intros pin.
  destruct (decide (pin = led1)) as [->|H1]; [now rewrite !phase_led1|].
  destruct (decide (pin = led2)) as [->|H2]; [now rewrite !phase_led2|].
  destruct (decide (pin = buzzer)) as [->|H3]; [now rewrite !phase_buzzer|].
  now rewrite !phase_other.
Qed.

Lemma steady_led1 (p : gmap Z Level) : steady_pins p !! led1 = Some HIGH.
Proof.
  unfold steady_pins, led1, buzzer.
  rewrite lookup_insert_ne by lia. apply lookup_insert_eq.
Qed.

Lemma steady_buzzer (p : gmap Z Level) : steady_pins p !! buzzer = Some HIGH.
Proof. unfold steady_pins. apply lookup_insert_eq. Qed.

Lemma steady_led2 (p : gmap Z Level) : steady_pins p !! led2 = p !! led2.
Proof.
  unfold steady_pins, led1, led2, buzzer. now rewrite !lookup_insert_ne by lia.
Qed.

Lemma alternating_phase a b z (p : gmap Z Level) :
  alternating (phase a b z p) = negb (Level_eqb a b) && Level_eqb z a.
Proof.
  unfold alternating. now rewrite phase_led1, phase_led2, phase_buzzer.
Qed.

Lemma blink_pins_phase (p : gmap Z Level) : blink_pins p = phase LOW HIGH LOW p.
Proof. apply phase_phase. Qed.

Lemma pins_off_device (d : device) :
  pins (off_device d) = phase LOW LOW LOW (pins d).
Proof. reflexivity. Qed.

Lemma pins_on_device (d : device) :
  pins (on_device d) =
  steady_pins (blink_pins (blink_pins (blink_pins (pins d)))).
Proof. reflexivity. Qed.

Lemma uptime_on_device (d : device) : uptime (on_device d) = uptime d + 3500.
Proof. cbn. lia. Qed.

(** ** The [/off] route *)

(** C1: from any device state, the [/off] lambda writes low to led1, led2
    and the buzzer, in that order and with no pause, and then sends a 303
    response that carries [Location: /]. *)
Theorem off_handler_clears_then_redirects (d : device) (fuel : nat) :
  let o := exec (5 + fuel) off_handler d in
  result o = Some tt /\
  List.map fst (trace o) =
    [ call (DigitalWrite led1 LOW); call (DigitalWrite led2 LOW);
      call (DigitalWrite buzzer LOW);
      call (ServerSendHeader "Location" "/");
      call (ServerSend 303 None EmptyString) ] /\
  pins (final o) !! led1 = Some LOW /\
  pins (final o) !! led2 = Some LOW /\
  pins (final o) !! buzzer = Some LOW /\
  uptime (final o) = uptime d /\
  exists r, responses (final o) = responses d ++ [r] /\
            status r = 303 /\ In ("Location", "/") (headers r).
Proof.
  cbv zeta. rewrite off_handler_run. cbn [result trace final].
  split; [reflexivity|]. split; [reflexivity|].
  rewrite pins_off_device.
  split; [apply phase_led1|]. split; [apply phase_led2|].
  split; [apply phase_buzzer|]. split; [reflexivity|].
  eexists. split; [reflexivity|]. split; [reflexivity|].
  cbn [headers]. apply in_or_app. right. now left.
Qed.

(** C5: running the [/off] lambda a second time leaves the pins exactly as
    the first run left them. *)
Theorem off_handler_idempotent (d : device) (fuel1 fuel2 : nat) :
  let once := final (exec (5 + fuel1) off_handler d) in
  let twice := final (exec (5 + fuel2) off_handler once) in
  pins twice = pins once.
Proof.
  cbv zeta. rewrite !off_handler_run. cbn [final].
  rewrite !pins_off_device. apply phase_phase.
Qed.

(** ** The [/on] route *)

(** C2: the [/on] lambda makes exactly the calls of the alarm sequence
    (three repetitions of the two half-second halves, then the closing
    phase) in order, and only then queues [Location: /] and sends 303. *)
Theorem on_handler_sequence_then_redirect (d : device) (fuel : nat) :
  let o := exec (32 + fuel) on_handler d in
  result o = Some tt /\
  List.map fst (trace o) = alarm_sequence ++ redirect_calls /\
  uptime (final o) = uptime d + 7 * 500 /\
  exists r, responses (final o) = responses d ++ [r] /\
            status r = 303 /\ In ("Location", "/") (headers r).
Proof.
  cbv zeta. rewrite on_handler_run. cbn [result trace final].
  split; [reflexivity|]. split; [reflexivity|].
  split; [apply uptime_on_device|].
  eexists. split; [reflexivity|]. split; [reflexivity|].
  cbn [headers]. apply in_or_app. right. now left.
Qed.

(** C3: from any device state, once the [/on] lambda has returned led1 and
    the buzzer are high. *)
Theorem on_handler_leaves_led1_and_buzzer_high (d : device) (fuel : nat) :
  let o := exec (32 + fuel) on_handler d in
  result o = Some tt /\
  pins (final o) !! led1 = Some HIGH /\
  pins (final o) !! buzzer = Some HIGH.
Proof.
  cbv zeta. rewrite on_handler_run. cbn [result final].
  rewrite pins_on_device.
  split; [reflexivity|]. split; [apply steady_led1 | apply steady_buzzer].
Qed.

(** C9: after the [/on] lambda all three lines are high, whatever they were
    before: the loop's last write to led2 is high and no later call writes
    led2. *)
Theorem on_handler_leaves_all_high (d : device) (fuel : nat) :
  let o := exec (32 + fuel) on_handler d in
  let calls := List.map fst (trace o) in
  result o = Some tt /\
  pins (final o) !! led1 = Some HIGH /\
  pins (final o) !! led2 = Some HIGH /\
  pins (final o) !! buzzer = Some HIGH /\
  firstn 24 calls = repetition ++ repetition ++ repetition /\
  last_write led2 (firstn 24 calls) = Some HIGH /\
  existsb (writes_pin led2) (skipn 24 calls) = false.
Proof.
  cbv zeta. rewrite on_handler_run. cbn [result trace final].
  rewrite pins_on_device.
  split; [reflexivity|]. split; [apply steady_led1|].
  split; [rewrite steady_led2, !blink_pins_phase; apply phase_led2|].
  split; [apply steady_buzzer|].
  split; [reflexivity|]. split; reflexivity.
Qed.

(** C8: every invocation of the [/on] lambda returns, after the same 29
    calls whatever the device state: 20 pin writes, 7 pauses and the two
    calls of the redirection. *)
Theorem on_handler_always_completes (d : device) (fuel : nat) :
  let o := exec (32 + fuel) on_handler d in
  let calls := List.map fst (trace o) in
  result o = Some tt /\
  interp_state h_device on_handler d ≈ Ret (final o, tt) /\
  calls = alarm_sequence ++ redirect_calls /\
  length calls = 29%nat /\
  length (filter is_write calls) = 20%nat /\
  length (filter is_delay calls) = 7%nat /\
  uptime (final o) = uptime d + 3500.
Proof.
  cbv zeta.
  assert (Hret : result (exec (32 + fuel) on_handler d) = Some tt)
    by now rewrite on_handler_run.
  split; [exact Hret|].
  split; [now apply exec_sound|].
  rewrite on_handler_run. cbn [result trace final].
  split; [reflexivity|]. split; [reflexivity|].
  split; [reflexivity|]. split; [reflexivity|].
  apply uptime_on_device.
Qed.

(** ** The three repetitions, point by point *)

(** C4 as stated fails: at some point of the loop the alternation is
    broken.  Started on the quiet device, the first write raises led1 while
    the buzzer is still low. *)
Lemma alarm_loop_not_alternating_at_every_point :
  ~ (forall (d : device) (fuel : nat),
       forallb (fun s => alternating (snd s))
         (trace (exec fuel alarm_loop d)) = true).
Proof.
  intros H. specialize (H quiet_device 1%nat).
  vm_compute in H. discriminate.
Qed.

(** The same loop breaks it from every start state: the write that opens
    the second half lowers led1 while led2 is still low. *)
Lemma alarm_loop_breaks_alternation (d : device) (fuel : nat) :
  forallb (fun s => alternating (snd s))
    (trace (exec (27 + fuel) alarm_loop d)) = false.
Proof.
  rewrite alarm_loop_run. cbn [trace].
  apply not_true_is_false. intros H.
  rewrite forallb_forall in H.
  specialize (H (call (DigitalWrite led1 LOW),
                 <[led1 := LOW]> (phase HIGH LOW HIGH (pins d)))).
  assert (Hin : In (call (DigitalWrite led1 LOW),
                    <[led1 := LOW]> (phase HIGH LOW HIGH (pins d)))
                  (loop_trace (pins d))).
  { unfold loop_trace, blink_trace, half_trace. cbn [app].
    do 4 right. now left. }
  specialize (H Hin). cbn [snd] in H. unfold alternating in H.
  rewrite lookup_insert_eq in H.
  rewrite !lookup_insert_ne in H by (unfold led1, led2, buzzer; lia).
  rewrite phase_led2, phase_buzzer in H. discriminate.
Qed.

Lemma half_trace_pauses_alternate a b z (p : gmap Z Level) :
  negb (Level_eqb a b) && Level_eqb z a = true ->
  forallb (fun s => implb (is_delay (fst s)) (alternating (snd s)))
    (half_trace a b z p) = true.
Proof.
  intros H. unfold half_trace. cbn [forallb fst snd is_delay call projT2 implb].
  now rewrite alternating_phase, H.
Qed.

(** C4, as the code has it: at every pause of the three repetitions, from
    any start state and however far the loop has run, led1 and led2 hold
    opposite levels and the buzzer holds the level of led1; the loop pauses
    six times. *)
Theorem alarm_loop_alternates_at_pauses (d : device) (fuel : nat) :
  forallb (fun s => implb (is_delay (fst s)) (alternating (snd s)))
    (trace (exec fuel alarm_loop d)) = true /\
  length (filter (fun s => is_delay (fst s))
            (trace (exec (27 + fuel) alarm_loop d))) = 6%nat.
Proof.
  split.
  - destruct (exec_prefix fuel 27 alarm_loop d) as [l Hl].
    rewrite Nat.add_comm, alarm_loop_run in Hl. cbn [trace] in Hl.
    assert (Hall : forallb
                     (fun s => implb (is_delay (fst s)) (alternating (snd s)))
                     (loop_trace (pins d)) = true).
    { unfold loop_trace, blink_trace.
      rewrite !forallb_app, !half_trace_pauses_alternate; reflexivity. }
    rewrite Hl, forallb_app in Hall.
    now apply andb_true_iff in Hall.
  - rewrite alarm_loop_run. reflexivity.
Qed.

(** ** The root page *)

Lemma prefix_app (needle s : string) :
  String.prefix needle s = true -> exists b, s = (needle ++ b)%string.
Proof.
  revert s. induction needle as [|c needle IH]; intros s H.
  - now exists s.
  - destruct s as [|c' s]; [discriminate|]. cbn in H.
    destruct (Ascii.ascii_dec c c') as [->|]; [|discriminate].
    destruct (IH s H) as [b ->]. now exists b.
Qed.

(** [contains] finds only what is there. *)
Lemma contains_sound (needle s : string) :
  contains needle s = true ->
  exists a b, s = (a ++ needle ++ b)%string.
Proof.
  induction s as [|c s IH]; cbn [contains]; intros H;
    apply orb_true_iff in H as [H|H].
  - destruct (prefix_app _ _ H) as [b Hb]. now exists EmptyString, b.
  - discriminate.
  - destruct (prefix_app _ _ H) as [b Hb]. now exists EmptyString, b.
  - destruct (IH H) as (a & b & ->). now exists (String c a), b.
Qed.

(** C6: whatever the device state, [handleRoot] sends one response, with
    status 200 and content type text/html, whose content is the page with
    an anchor to /on and an anchor to /off. *)
Theorem handleRoot_serves_control_page (d : device) (fuel : nat) :
  let o := exec (1 + fuel) handleRoot d in
  result o = Some tt /\
  List.map fst (trace o) = [call (ServerSend 200 (Some "text/html") root_html)] /\
  responses (final o) =
    responses d ++ [mkResponse 200 (Some "text/html") (out_headers d) root_html] /\
  (exists a b, root_html = (a ++ "<a href='/on'>" ++ b)%string) /\
  (exists a b, root_html = (a ++ "<a href='/off'>" ++ b)%string).
Proof.
  cbv zeta. rewrite handleRoot_run. cbn [result trace final].
  split; [reflexivity|]. split; [reflexivity|]. split; [reflexivity|].
  split; apply contains_sound; vm_compute; reflexivity.
Qed.

(** C10: serving the root page writes no pin: however far [handleRoot] has
    run, no call made is a pin write, the pins are as they were at every
    call, and they are as they were at the end. *)
Theorem handleRoot_leaves_pins_alone (d : device) (fuel : nat) :
  let o := exec fuel handleRoot d in
  pins (final o) = pins d /\
  pins (final o) !! led1 = pins d !! led1 /\
  pins (final o) !! led2 = pins d !! led2 /\
  pins (final o) !! buzzer = pins d !! buzzer /\
  existsb (fun s => is_write (fst s)) (trace o) = false /\
  Forall (fun s => snd s = pins d) (trace o).
Proof.
  cbv zeta.
  assert (H : exec fuel handleRoot d = mkOutcome [] d None \/
              exec fuel handleRoot d =
              mkOutcome
                [(call (ServerSend 200 (Some "text/html") root_html), pins d)]
                (root_device d) (Some tt)).
  { destruct fuel as [|fuel]; [left; reflexivity|right].
    apply (handleRoot_run d fuel). }
  destruct H as [-> | ->]; cbn [trace final]; repeat split; auto.
Qed.

(** ** Start-up *)

(** A start-up on a radio that refuses: six calls, then the empty loop. *)
Lemma setup_ap_failed_run (d : device) (fuel : nat) :
  radio_ok d = false ->
  exec (6 + fuel) setup d =
  mkOutcome
    [ (call (PinMode led1 OUTPUT), pins d);
      (call (PinMode led2 OUTPUT), pins d);
      (call (PinMode buzzer OUTPUT), pins d);
      (call (SerialBegin 115200), pins d);
      (call (WiFiSoftAP ssid password), pins d);
      (call (SerialPrintln msg_ap_error), pins d) ]
    (set_serial (fun l => l ++ [Line msg_ap_error])
       (set_baud (Some 115200)
          (set_modes (fun m => <[buzzer := OUTPUT]> (<[led2 := OUTPUT]> (<[led1 := OUTPUT]> m))) d)))
    None.
Proof.
  intros Hfail.
  unfold setup, pinMode, Serial_begin, WiFi_softAP, Serial_println.
  cbn [Nat.add]. do 4 exec_step. rewrite exec_trigger_bind.
  cbn [handle radio_ok set_baud set_modes]. rewrite Hfail. cbn [fst snd negb].
  rewrite bind_bind, exec_trigger_bind. cbn [handle fst snd].
  rewrite exec_bind_running; rewrite while_true_running; reflexivity.
Qed.

Lemma setup_ap_created_run (d : device) (fuel : nat) :
  radio_ok d = true ->
  let o := exec (13 + fuel) setup d in
  result o = Some tt /\
  List.map fst (trace o) =
    [ call (PinMode led1 OUTPUT); call (PinMode led2 OUTPUT);
      call (PinMode buzzer OUTPUT); call (SerialBegin 115200);
      call (WiFiSoftAP ssid password); call WiFiSoftAPIP;
      call (SerialPrint msg_ap_ip); call (SerialPrintlnIP (radio_ip d));
      call (ServerOn "/" cb_handleRoot); call (ServerOn "/on" cb_on);
      call (ServerOn "/off" cb_off); call ServerBegin;
      call (SerialPrintln msg_started) ] /\
  access_point (final o) = Some (ssid, password) /\
  routes (final o) =
    routes d ++ [("/", cb_handleRoot); ("/on", cb_on); ("/off", cb_off)] /\
  listening (final o) = Some server_port.
Proof.
  intros Hok. cbv zeta.
  unfold setup, pinMode, Serial_begin, WiFi_softAP, WiFi_softAPIP,
    Serial_print, Serial_println, Serial_println_ip, server_on, server_begin.
  cbn [Nat.add]. do 4 exec_step. rewrite exec_trigger_bind.
  cbn [handle radio_ok set_baud set_modes]. rewrite Hok. cbn [fst snd negb].
  rewrite bind_ret_l. repeat exec_step.
  cbn. rewrite <- !app_assoc. repeat split.
Qed.

(** Before the sixth step of a start-up on a radio that refuses, nothing
    has touched the routes, the listener or the access point, and nothing
    has returned. *)
Lemma setup_ap_failed_early (d : device) (fuel : nat) :
  radio_ok d = false ->
  (fuel < 6)%nat ->
  let o := exec fuel setup d in
  result o = None /\
  routes (final o) = routes d /\
  listening (final o) = listening d /\
  access_point (final o) = access_point d /\
  existsb (fun s => is_server_setup (fst s)) (trace o) = false.
Proof.
  intros Hfail Hlt. cbv zeta.
  unfold setup, pinMode, Serial_begin, WiFi_softAP, Serial_println.
  do 6 (destruct fuel as [|fuel];
        [ repeat first
            [ exec_step
            | rewrite exec_trigger_bind_O
            | progress (cbn [radio_ok set_baud set_modes]; rewrite Hfail;
                        cbn [negb])
            | rewrite bind_bind ];
          now cbn
        | ]).
  lia.
Qed.

(** C7: when the radio refuses the access point, [setup] never returns
    whatever the fuel, never registers a route nor starts the server, asks
    for the access point once, and from its sixth step on has logged the
    error line and makes no further call.  When the radio accepts, [setup]
    runs to its end: no other call can stop it. *)
Theorem setup_halts_only_when_access_point_fails (d : device) (fuel : nat) :
  if radio_ok d then
    let o := exec (13 + fuel) setup d in
    result o = Some tt /\
    routes (final o) =
      routes d ++ [("/", cb_handleRoot); ("/on", cb_on); ("/off", cb_off)] /\
    listening (final o) = Some server_port
  else
    let o := exec fuel setup d in
    let halted := exec (6 + fuel) setup d in
    result o = None /\
    routes (final o) = routes d /\
    listening (final o) = listening d /\
    access_point (final o) = access_point d /\
    existsb (fun s => is_server_setup (fst s)) (trace o) = false /\
    List.map fst (trace halted) =
      [ call (PinMode led1 OUTPUT); call (PinMode led2 OUTPUT);
        call (PinMode buzzer OUTPUT); call (SerialBegin 115200);
        call (WiFiSoftAP ssid password); call (SerialPrintln msg_ap_error) ] /\
    length (filter is_softAP (List.map fst (trace halted))) = 1%nat /\
    serial (final halted) = serial d ++ [Line msg_ap_error] /\
    interp_state h_device setup d ≈ ITree.spin.
Proof.
  destruct (radio_ok d) eqn:Hradio.
  - destruct (setup_ap_created_run d fuel Hradio) as (H1 & _ & _ & H2 & H3).
    auto.
  - cbv zeta.
    assert (Hrun : result (exec fuel setup d) = None /\
                   routes (final (exec fuel setup d)) = routes d /\
                   listening (final (exec fuel setup d)) = listening d /\
                   access_point (final (exec fuel setup d)) = access_point d /\
                   existsb (fun s => is_server_setup (fst s))
                     (trace (exec fuel setup d)) = false).
    { destruct (Nat.lt_ge_cases fuel 6) as [Hlt|Hge].
      - now apply setup_ap_failed_early.
      - replace fuel with (6 + (fuel - 6))%nat by lia.
        rewrite setup_ap_failed_run by assumption. now cbn. }
    destruct Hrun as (H1 & H2 & H3 & H4 & H5).
    rewrite (setup_ap_failed_run d fuel Hradio). cbn [trace final].
    repeat (split; [assumption|]). split; [reflexivity|].
    split; [reflexivity|]. split; [reflexivity|].
    assert (Hall : forall n, result (exec n setup d) = None).
    { intros n. replace n with ((6 + n) - 6)%nat by lia.
      apply exec_still_running.
      now rewrite (setup_ap_failed_run d n Hradio). }
    rewrite (exec_diverges_spin setup d Hall). reflexivity.
Qed.

(** On a radio that refuses, a thousand steps are no more use than six. *)
Example setup_on_deaf_device :
  result (exec 1000 setup deaf_device) = None /\
  trace (exec 1000 setup deaf_device) = trace (exec 6 setup deaf_device) /\
  serial (final (exec 1000 setup deaf_device)) = [Line msg_ap_error].
Proof. vm_compute. repeat split. Qed.

(** ** One round on a concrete device *)

(** The alarm raised on the quiet device and then switched off: all three
    lines high after [/on], all three low after [/off], three and a half
    seconds spent, two redirections sent. *)
Example on_then_off_on_quiet_device :
  let d1 := final (exec 32 on_handler quiet_device) in
  let d2 := final (exec 5 off_handler d1) in
  (pins d1 !! led1, pins d1 !! led2, pins d1 !! buzzer)
    = (Some HIGH, Some HIGH, Some HIGH) /\
  (pins d2 !! led1, pins d2 !! led2, pins d2 !! buzzer)
    = (Some LOW, Some LOW, Some LOW) /\
  uptime d2 = 3500 /\
  List.map status (responses d2) = [303; 303].
Proof. vm_compute. repeat split. Qed.

(** ** What a run leaves alone *)

Lemma last_cons {A : Type} (x : A) (l : list A) (d : A) :
  List.last (x :: l) d = List.last l x.
Proof.
  revert x d. induction l as [|y l IH]; intros x d; [reflexivity|].
  change (List.last (x :: y :: l) d) with (List.last (y :: l) d).
  now rewrite !IH.
Qed.

(** The pins a run ends with are those of its last snapshot. *)
Lemma exec_final_pins {R : Type} (n : nat) :
  forall (t : itree ioE R) (d : device),
    pins (final (exec n t d)) =
    List.last (List.map snd (trace (exec n t d))) (pins d).
Proof.
  induction n as [|n IH]; intros t d; rewrite exec_unfold;
    destruct (observe t) as [r|t'|T e k]; try reflexivity.
  - apply IH.
  - destruct (handle e d) as [d' x]. cbn [after final trace List.map snd].
    now rewrite last_cons, IH.
Qed.

(** A run without pin writes shows the initial pins at every call. *)
Lemma exec_no_write {R : Type} (n : nat) :
  forall (t : itree ioE R) (d : device),
    existsb (fun s => is_write (fst s)) (trace (exec n t d)) = false ->
    Forall (fun s => snd s = pins d) (trace (exec n t d)).
Proof.
  induction n as [|n IH]; intros t d; rewrite exec_unfold;
    destruct (observe t) as [r|t'|T e k]; try (intros; constructor).
  - apply IH.
  - destruct (handle e d) as [d' x] eqn:Hh.
    cbn [after trace existsb fst]. intros H.
    apply orb_false_iff in H as [Hw Hrest].
    assert (Hp : pins d' = pins d).
    { destruct e; cbn in Hw; try discriminate; cbn in Hh;
        try (injection Hh as <- _; reflexivity).
      destruct (radio_ok d); injection Hh as <- _; reflexivity. }
    constructor; [exact Hp|]. rewrite <- Hp. now apply IH.
Qed.

(** A run that never writes [pin] shows its initial level at every call. *)
Lemma exec_pin_frame {R : Type} (pin : Z) (n : nat) :
  forall (t : itree ioE R) (d : device),
    existsb (fun s => writes_pin pin (fst s)) (trace (exec n t d)) = false ->
    Forall (fun s => snd s !! pin = pins d !! pin) (trace (exec n t d)).
Proof.
  induction n as [|n IH]; intros t d; rewrite exec_unfold;
    destruct (observe t) as [r|t'|T e k]; try (intros; constructor).
  - apply IH.
  - destruct (handle e d) as [d' x] eqn:Hh.
    cbn [after trace existsb fst]. intros H.
    apply orb_false_iff in H as [Hw Hrest].
    assert (Hp : pins d' !! pin = pins d !! pin).
    { destruct e; cbn in Hw; cbn in Hh;
        try (injection Hh as <- _; reflexivity).
      - injection Hh as <- _. cbn [set_pins pins].
        apply lookup_insert_ne. intros ->. now rewrite Z.eqb_refl in Hw.
      - destruct (radio_ok d); injection Hh as <- _; reflexivity. }
    constructor; [exact Hp|]. rewrite <- Hp. now apply IH.
Qed.

(** A run made of handler calls leaves the configuration as it was. *)
Lemma exec_config_frame {R : Type} (n : nat) :
  forall (t : itree ioE R) (d : device),
    forallb (fun s => is_handler_call (fst s)) (trace (exec n t d)) = true ->
    config (final (exec n t d)) = config d.
Proof.
  induction n as [|n IH]; intros t d; rewrite exec_unfold;
    destruct (observe t) as [r|t'|T e k]; try reflexivity.
  - apply IH.
  - destruct (handle e d) as [d' x] eqn:Hh.
    cbn [after trace final forallb fst]. intros H.
    apply andb_true_iff in H as [Hc Hrest].
    rewrite (IH (k x) d' Hrest).
    destruct e; cbn in Hc; try discriminate; cbn in Hh;
      injection Hh as <- _; reflexivity.
Qed.

Lemma last_snd_Forall {A B : Type} (Q : B -> Prop) (l : list (A * B)) (b : B) :
  Forall (fun s => Q (snd s)) l -> Q b -> Q (List.last (List.map snd l) b).
Proof.
  revert b. induction l as [|s l IH]; intros b Hl Hb; [exact Hb|].
  cbn [List.map]. rewrite last_cons. inversion Hl; subst. now apply IH.
Qed.

Lemma existsb_app_false_l {A : Type} (f : A -> bool) (l l' : list A) :
  existsb f (l ++ l') = false -> existsb f l = false.
Proof. rewrite existsb_app. intros H. now apply orb_false_iff in H. Qed.

Lemma forallb_app_true_l {A : Type} (f : A -> bool) (l l' : list A) :
  forallb f (l ++ l') = true -> forallb f l = true.
Proof. rewrite forallb_app. intros H. now apply andb_true_iff in H. Qed.

(** ** Whole runs of the callbacks *)

Lemma callback_run (cb : callback) (d : device) (fuel : nat) :
  exec (32 + fuel) (callback_body cb) d =
  mkOutcome (callback_trace cb (pins d)) (callback_device cb d) (Some tt).
Proof.
  destruct cb; cbn [callback_body callback_trace callback_device].
  - apply (handleRoot_run d (31 + fuel)).
  - apply on_handler_run.
  - apply (off_handler_run d (27 + fuel)).
Qed.

(** However far a callback has run, what it has done so far begins what
    its whole run does. *)
Lemma callback_trace_prefix (cb : callback) (d : device) (fuel : nat) :
  exists l,
    callback_trace cb (pins d) = trace (exec fuel (callback_body cb) d) ++ l.
Proof.
  destruct (exec_prefix fuel 32 (callback_body cb) d) as [l Hl].
  rewrite Nat.add_comm, callback_run in Hl. now exists l.
Qed.

Lemma callback_trace_handler_calls (cb : callback) (p : gmap Z Level) :
  forallb (fun s => is_handler_call (fst s)) (callback_trace cb p) = true.
Proof. destruct cb; reflexivity. Qed.

Lemma callback_trace_other_pins (cb : callback) (p : gmap Z Level) (pin : Z) :
  pin <> led1 -> pin <> led2 -> pin <> buzzer ->
  existsb (fun s => writes_pin pin (fst s)) (callback_trace cb p) = false.
Proof.
  intros H1 H2 H3.
  assert (E1 : (led1 =? pin) = false) by (apply Z.eqb_neq; congruence).
  assert (E2 : (led2 =? pin) = false) by (apply Z.eqb_neq; congruence).
  assert (E3 : (buzzer =? pin) = false) by (apply Z.eqb_neq; congruence).
  destruct cb;
    unfold callback_trace, on_trace, off_trace, loop_trace, blink_trace,
      half_trace, steady_trace, redirect_trace;
    cbn [existsb List.app fst writes_pin projT2 call];
    rewrite ?E1, ?E2, ?E3; reflexivity.
Qed.

(** X1: whatever callback runs and however far it has run, a GPIO line
    other than led1, led2 and the buzzer holds the level it had. *)
Theorem callbacks_touch_only_three_lines
    (cb : callback) (d : device) (fuel : nat) (pin : Z)
    (H1 : pin <> led1) (H2 : pin <> led2) (H3 : pin <> buzzer) :
  let o := exec fuel (callback_body cb) d in
  pins (final o) !! pin = pins d !! pin /\
  Forall (fun s => snd s !! pin = pins d !! pin) (trace o).
Proof.
  cbv zeta.
  assert (Hall : Forall (fun s => snd s !! pin = pins d !! pin)
                   (trace (exec fuel (callback_body cb) d))).
  { apply exec_pin_frame.
    destruct (callback_trace_prefix cb d fuel) as [l Hl].
    apply existsb_app_false_l with l. rewrite <- Hl.
    now apply callback_trace_other_pins. }
  split; [|exact Hall].
  rewrite exec_final_pins.
  now apply (last_snd_Forall (fun p => p !! pin = pins d !! pin)).
Qed.

Lemma callbacks_touch_only_three_lines_witness :
  let d := set_pins (insert 2 HIGH) quiet_device in
  let o := exec 40 (callback_body cb_on) d in
  pins (final o) !! 2 = pins d !! 2 /\
  Forall (fun s => snd s !! 2 = pins d !! 2) (trace o).
Proof.
  apply (callbacks_touch_only_three_lines cb_on
           (set_pins (insert 2 HIGH) quiet_device) 40 2);
    unfold led1, led2, buzzer; lia.
Defined.

(** X2: whatever callback runs and however far it has run, the pin modes,
    the serial port and its log, the access point, the routes and the
    listener are as they were. *)
Theorem callbacks_leave_config_alone (cb : callback) (d : device) (fuel : nat) :
  config (final (exec fuel (callback_body cb) d)) = config d.
Proof.
  apply exec_config_frame.
  destruct (callback_trace_prefix cb d fuel) as [l Hl].
  apply forallb_app_true_l with l. rewrite <- Hl.
  apply callback_trace_handler_calls.
Qed.

(** X3: every callback returns, having sent exactly one response, as its
    last call: 200 for the root page and 303 for the two alarm routes. *)
Theorem callback_sends_one_response_last
    (cb : callback) (d : device) (fuel : nat) :
  let o := exec (32 + fuel) (callback_body cb) d in
  let calls := List.map fst (trace o) in
  result o = Some tt /\
  length (filter is_send calls) = 1%nat /\
  is_send (List.last calls (call (Delay 0))) = true /\
  exists r, responses (final o) = responses d ++ [r] /\
            status r = match cb with cb_handleRoot => 200 | _ => 303 end.
Proof.
  cbv zeta. rewrite callback_run. cbn [result trace final].
  destruct cb; (split; [reflexivity|]); (split; [reflexivity|]);
    (split; [reflexivity|]); eexists; split; reflexivity.
Qed.

(** X4: every callback returns, under the library's interpreter too; the
    [/on] lambda has then spent 3500 ms in pauses, the two others none. *)
Theorem callback_returns_in_bounded_time
    (cb : callback) (d : device) (fuel : nat) :
  let o := exec (32 + fuel) (callback_body cb) d in
  result o = Some tt /\
  interp_state h_device (callback_body cb) d ≈ Ret (final o, tt) /\
  uptime (final o) = uptime d + callback_time cb.
Proof.
  cbv zeta.
  assert (Hret : result (exec (32 + fuel) (callback_body cb) d) = Some tt)
    by now rewrite callback_run.
  split; [exact Hret|]. split; [now apply exec_sound|].
  rewrite callback_run. cbn [final].
  destruct cb; cbn [callback_device callback_time].
  - cbn. lia.
  - apply uptime_on_device.
  - cbn. lia.
Qed.

(** ** Requests in a row *)

Lemma steady_after_blink (p : gmap Z Level) :
  steady_pins (blink_pins (blink_pins (blink_pins p))) = phase HIGH HIGH HIGH p.
Proof.
  rewrite !blink_pins_phase, !phase_phase.
  apply map_eq. intros pin.
  destruct (decide (pin = led1)) as [->|H1];
    [now rewrite steady_led1, phase_led1|].
  destruct (decide (pin = led2)) as [->|H2];
    [now rewrite steady_led2, !phase_led2|].
  destruct (decide (pin = buzzer)) as [->|H3];
    [now rewrite steady_buzzer, phase_buzzer|].
  rewrite phase_other by assumption.
  unfold steady_pins. rewrite !lookup_insert_ne by congruence.
  now apply phase_other.
Qed.

(** The pins after a whole run of a callback. *)
Lemma pins_callback_device (cb : callback) (d : device) :
  pins (callback_device cb d) = set_lines (requested_level cb) (pins d).
Proof.
  destruct cb; cbn [callback_device requested_level set_lines].
  - reflexivity.
  - rewrite pins_on_device. apply steady_after_blink.
  - apply pins_off_device.
Qed.

Lemma set_lines_set_lines (v w : option Level) (p : gmap Z Level) :
  set_lines v (set_lines w p) =
  set_lines (match v with Some l => Some l | None => w end) p.
Proof. destruct v, w; cbn [set_lines]; auto using phase_phase. Qed.

Lemma callback_run0 (cb : callback) (d : device) :
  exec 32 (callback_body cb) d =
  mkOutcome (callback_trace cb (pins d)) (callback_device cb d) (Some tt).
Proof. exact (callback_run cb d 0). Qed.

Lemma uptime_callback_device (cb : callback) (d : device) :
  uptime (callback_device cb d) = uptime d + callback_time cb.
Proof.
  destruct cb; cbn [callback_device callback_time].
  - cbn. lia.
  - apply uptime_on_device.
  - cbn. lia.
Qed.

Lemma config_callback_device (cb : callback) (d : device) :
  config (callback_device cb d) = config d.
Proof. destruct cb; reflexivity. Qed.

Lemma responses_callback_device (cb : callback) (d : device) :
  length (responses (callback_device cb d)) = S (length (responses d)).
Proof. destruct cb; cbn; rewrite length_app; cbn; lia. Qed.

Lemma serve_all_run (cbs : list callback) :
  forall (d : device) (fuel : nat),
    let o := exec (32 * length cbs + fuel) (serve_all cbs) d in
    result o = Some tt /\
    pins (final o) = set_lines (last_alarm cbs) (pins d) /\
    uptime (final o) = uptime d + fold_right Z.add 0 (List.map callback_time cbs) /\
    length (responses (final o)) = (length (responses d) + length cbs)%nat /\
    config (final o) = config d.
Proof.
  induction cbs as [|cb rest IH]; intros d fuel; cbv zeta.
  - cbn [serve_all]. rewrite exec_Ret. cbn. repeat split; lia.
  - cbn [serve_all length].
    replace (32 * S (length rest) + fuel)%nat
      with (32 + (32 * length rest + fuel))%nat by lia.
    destruct (IH (callback_device cb d) fuel) as (Hr & Hp & Hu & Hn & Hc).
    rewrite (exec_bind 32 (32 * length rest + fuel) _ (callback_body cb) d tt);
      rewrite ?callback_run0; cbn [result final trace];
      [ | reflexivity | congruence ].
    unfold preceded_by. cbn [result final].
    split; [exact Hr|].
    split; [rewrite Hp, pins_callback_device, set_lines_set_lines;
            reflexivity|].
    split.
    { rewrite Hu, uptime_callback_device. cbn [List.map fold_right]. lia. }
    split.
    { rewrite Hn, responses_callback_device. lia. }
    rewrite Hc. apply config_callback_device.
Qed.


Lemma uptime_off_device (d : device) : uptime (off_device d) = uptime d.
Proof. reflexivity. Qed.

Lemma statuses_on_device (d : device) :
  List.map status (responses (on_device d)) =
  List.map status (responses d) ++ [303].
Proof. cbn. now rewrite List.map_app. Qed.

Lemma statuses_off_device (d : device) :
  List.map status (responses (off_device d)) =
  List.map status (responses d) ++ [303].
Proof. cbn. now rewrite List.map_app. Qed.

(** X6: [/off] after [/on], from any device: the three lines are low, the
    pins are exactly as [/off] alone would leave them, 3500 ms were spent,
    and two 303 responses were sent. *)
Theorem off_after_on_clears (d : device) (fuel1 fuel2 : nat) :
  let d1 := final (exec (32 + fuel1) on_handler d) in
  let o := exec (5 + fuel2) off_handler d1 in
  result o = Some tt /\
  pins (final o) !! led1 = Some LOW /\
  pins (final o) !! led2 = Some LOW /\
  pins (final o) !! buzzer = Some LOW /\
  pins (final o) = pins (final (exec (5 + fuel2) off_handler d)) /\
  uptime (final o) = uptime d + 3500 /\
  List.map status (responses (final o)) =
    List.map status (responses d) ++ [303; 303].
Proof.
  cbv zeta. rewrite on_handler_run. cbn [final].
  rewrite !off_handler_run. cbn [result final].
  rewrite !pins_off_device, pins_on_device.
  split; [reflexivity|]. split; [apply phase_led1|].
  split; [apply phase_led2|]. split; [apply phase_buzzer|].
  split; [rewrite steady_after_blink; apply phase_phase|].
  split; [rewrite uptime_off_device; apply uptime_on_device|].
  rewrite statuses_off_device, statuses_on_device, <- app_assoc.
  reflexivity.
Qed.

Lemma set_lines_id (v : Level) (p : gmap Z Level) :
  p !! led1 = Some v -> p !! led2 = Some v -> p !! buzzer = Some v ->
  phase v v v p = p.
Proof.
  intros H1 H2 H3. unfold phase.
  rewrite (insert_id p led1 v H1), (insert_id p led2 v H2).
  now apply insert_id.
Qed.

(** X7: asking again for what is already there changes no pin: when the
    three lines already hold the level a callback requests, the pin map
    after its run is the pin map before. *)
Theorem callback_at_requested_level_keeps_pins
    (cb : callback) (v : Level) (d : device) (fuel : nat)
    (Hv : requested_level cb = Some v)
    (H1 : pins d !! led1 = Some v)
    (H2 : pins d !! led2 = Some v)
    (H3 : pins d !! buzzer = Some v) :
  pins (final (exec (32 + fuel) (callback_body cb) d)) = pins d.
Proof.
  rewrite callback_run. cbn [final].
  rewrite pins_callback_device, Hv. cbn [set_lines].
  now apply set_lines_id.
Qed.

Lemma callback_at_requested_level_keeps_pins_witness :
  pins (final (exec 32 (callback_body cb_off) quiet_device))
  = pins quiet_device.
Proof.
  apply (callback_at_requested_level_keeps_pins cb_off LOW quiet_device 0);
    vm_compute; reflexivity.
Defined.

(** ** More on start-up *)

Lemma exec_trigger_O {T : Type} (e : ioE T) d :
  exec 0 (ITree.trigger e) d = mkOutcome [] d None.
Proof. reflexivity. Qed.

Lemma existsb_map_fst {A B : Type} (f : A -> bool) (l : list (A * B)) :
  existsb (fun s => f (fst s)) l = existsb f (List.map fst l).
Proof. induction l as [|s l IH]; [reflexivity|]. cbn. now rewrite IH. Qed.

(** However far [setup] has run, no call it has made writes a pin. *)
Lemma setup_no_write (d : device) (fuel : nat) :
  existsb (fun s => is_write (fst s)) (trace (exec fuel setup d)) = false.
Proof.
  rewrite existsb_map_fst.
  destruct (radio_ok d) eqn:Hradio.
  - destruct (exec_prefix fuel 13 setup d) as [l Hl].
    rewrite Nat.add_comm in Hl.
    destruct (setup_ap_created_run d fuel Hradio) as (_ & Hcalls & _).
    rewrite Hl, List.map_app in Hcalls.
    apply existsb_app_false_l with (List.map fst l). now rewrite Hcalls.
  - destruct (exec_prefix fuel 6 setup d) as [l Hl].
    rewrite Nat.add_comm, (setup_ap_failed_run d fuel Hradio) in Hl.
    cbn [trace] in Hl.
    apply (f_equal (List.map fst)) in Hl. rewrite List.map_app in Hl.
    apply existsb_app_false_l with (List.map fst l). now rewrite <- Hl.
Qed.

(** X8: [setup] never drives a line, whether the access point comes up or
    not: however far it has run, the pin levels are those it started with,
    at every call and at the end. *)
Theorem setup_never_drives_a_pin (d : device) (fuel : nat) :
  let o := exec fuel setup d in
  pins (final o) = pins d /\
  Forall (fun s => snd s = pins d) (trace o) /\
  existsb (fun s => is_write (fst s)) (trace o) = false.
Proof.
  cbv zeta.
  assert (Hall : Forall (fun s => snd s = pins d) (trace (exec fuel setup d)))
    by apply exec_no_write, setup_no_write.
  split; [|split; [exact Hall | apply setup_no_write]].
  rewrite exec_final_pins.
  now apply (last_snd_Forall (fun p => p = pins d)).
Qed.

Ltac setup_step Hradio :=
  first
    [ exec_step
    | rewrite exec_trigger_bind_O
    | rewrite exec_trigger_O
    | progress (cbn [radio_ok set_baud set_modes]; rewrite Hradio;
                cbn [fst snd negb])
    | rewrite bind_ret_l
    | rewrite bind_bind ].

(** The whole of a start-up whose access point came up. *)
Lemma setup_ap_created_state (d : device) (fuel : nat) :
  radio_ok d = true ->
  let o := exec (13 + fuel) setup d in
  modes (final o) =
    <[buzzer := OUTPUT]> (<[led2 := OUTPUT]> (<[led1 := OUTPUT]> (modes d))) /\
  baud (final o) = Some 115200 /\
  serial (final o) =
    serial d ++ [Text msg_ap_ip; LineIP (radio_ip d); Line msg_started] /\
  uptime (final o) = uptime d /\
  responses (final o) = responses d.
Proof.
  intros Hok. cbv zeta.
  unfold setup, pinMode, Serial_begin, WiFi_softAP, WiFi_softAPIP,
    Serial_print, Serial_println, Serial_println_ip, server_on, server_begin.
  cbn [Nat.add]. repeat setup_step Hok.
  cbn. rewrite <- !app_assoc. repeat split.
Qed.

(** X9: the server never listens on a partial route table: at whatever
    point of [setup] one looks, either the listener is still off, or it is
    on port 80 with the access point up and the three routes registered. *)
Theorem setup_listens_only_with_all_routes (d : device) (fuel : nat)
    (Hoff : listening d = None) :
  let o := exec fuel setup d in
  listening (final o) = None \/
  (listening (final o) = Some server_port /\
   routes (final o) = routes d ++ sketch_routes /\
   access_point (final o) = Some (ssid, password)).
Proof.
  cbv zeta. destruct (radio_ok d) eqn:Hradio.
  - unfold setup, pinMode, Serial_begin, WiFi_softAP, WiFi_softAPIP,
      Serial_print, Serial_println, Serial_println_ip, server_on, server_begin.
    do 13 (destruct fuel as [|fuel];
           [ repeat setup_step Hradio;
             cbn [final after listening routes access_point set_modes set_baud
                    set_serial set_access_point set_routes set_listening];
             first [ left; exact Hoff
                   | right; rewrite <- ?app_assoc; repeat split ]
           | ]).
    right.
    destruct (setup_ap_created_run d fuel Hradio) as (_ & _ & Ha & Hr & Hl).
    fold setup pinMode Serial_begin WiFi_softAP WiFi_softAPIP.
    auto.
  - left. rewrite <- Hoff.
    destruct (Nat.lt_ge_cases fuel 6) as [Hlt|Hge].
    + now apply setup_ap_failed_early.
    + replace fuel with (6 + (fuel - 6))%nat by lia.
      now rewrite setup_ap_failed_run.
Qed.

Lemma setup_listens_only_with_all_routes_witness :
  let o := exec 12 setup fresh_device in
  listening (final o) = None \/
  (listening (final o) = Some server_port /\
   routes (final o) = routes fresh_device ++ sketch_routes /\
   access_point (final o) = Some (ssid, password)).
Proof.
  apply (setup_listens_only_with_all_routes fresh_device 12). reflexivity.
Defined.

(** X10: when the access point comes up, [setup] returns with the serial
    port at 115200 baud and exactly three new entries in the log: the
    announcement, the address the radio reported, and the started line.
    It has spent no time in [delay] and sent no response. *)
Theorem setup_logs_address_when_ap_created (d : device) (fuel : nat)
    (Hok : radio_ok d = true) :
  let o := exec (13 + fuel) setup d in
  result o = Some tt /\
  baud (final o) = Some 115200 /\
  serial (final o) =
    serial d ++ [Text msg_ap_ip; LineIP (radio_ip d); Line msg_started] /\
  uptime (final o) = uptime d /\
  responses (final o) = responses d.
Proof.
  cbv zeta.
  destruct (setup_ap_created_run d fuel Hok) as (Hr & _).
  destruct (setup_ap_created_state d fuel Hok) as (_ & Hb & Hs & Hu & Hp).
  auto.
Qed.

Lemma setup_logs_address_when_ap_created_witness :
  let o := exec 13 setup fresh_device in
  result o = Some tt /\
  baud (final o) = Some 115200 /\
  serial (final o) =
    serial fresh_device
      ++ [Text msg_ap_ip; LineIP (radio_ip fresh_device); Line msg_started] /\
  uptime (final o) = uptime fresh_device /\
  responses (final o) = responses fresh_device.
Proof.
  apply (setup_logs_address_when_ap_created fresh_device 0). reflexivity.
Defined.

(** X11: whether or not the access point comes up, once [setup] has
    returned or halted the three lines are configured as outputs, no other
    pin mode was touched, and the serial port runs at 115200 baud. *)
Theorem setup_configures_outputs_whatever_the_radio (d : device) (fuel : nat) :
  let o := exec ((if radio_ok d then 13 else 6) + fuel) setup d in
  modes (final o) =
    <[buzzer := OUTPUT]> (<[led2 := OUTPUT]> (<[led1 := OUTPUT]> (modes d))) /\
  modes (final o) !! led1 = Some OUTPUT /\
  modes (final o) !! led2 = Some OUTPUT /\
  modes (final o) !! buzzer = Some OUTPUT /\
  baud (final o) = Some 115200.
Proof.
  cbv zeta.
  assert (H : modes (final (exec ((if radio_ok d then 13 else 6) + fuel)
                              setup d)) =
              <[buzzer := OUTPUT]>
                (<[led2 := OUTPUT]> (<[led1 := OUTPUT]> (modes d))) /\
              baud (final (exec ((if radio_ok d then 13 else 6) + fuel)
                             setup d)) = Some 115200).
  { destruct (radio_ok d) eqn:Hradio.
    - destruct (setup_ap_created_state d fuel Hradio) as (Hm & Hb & _). auto.
    - rewrite (setup_ap_failed_run d fuel Hradio). split; reflexivity. }
  destruct H as [Hm Hb]. rewrite Hm.
  split; [reflexivity|].
  split; [unfold led1, led2, buzzer; rewrite !lookup_insert_ne by lia;
          apply lookup_insert_eq|].
  split; [unfold led1, led2, buzzer; rewrite lookup_insert_ne by lia;
          apply lookup_insert_eq|].
  split; [apply lookup_insert_eq | exact Hb].
Qed.

(** ** How long each line is driven high *)

Lemma paused_high_app (pin : Z) (l l' : list (action * gmap Z Level)) :
  paused_high pin (l ++ l') = paused_high pin l + paused_high pin l'.
Proof.
  induction l as [|[a p] l IH]; cbn [List.app paused_high]; [lia|].
  rewrite IH. lia.
Qed.

Lemma paused_high_half_led1 a b z (p : gmap Z Level) :
  paused_high led1 (half_trace a b z p) = ms_if_high a.
Proof.
  unfold half_trace. cbn [paused_high call projT2].
  rewrite phase_led1. destruct a; reflexivity.
Qed.

Lemma paused_high_half_led2 a b z (p : gmap Z Level) :
  paused_high led2 (half_trace a b z p) = ms_if_high b.
Proof.
  unfold half_trace. cbn [paused_high call projT2].
  rewrite phase_led2. destruct b; reflexivity.
Qed.

Lemma paused_high_half_buzzer a b z (p : gmap Z Level) :
  paused_high buzzer (half_trace a b z p) = ms_if_high z.
Proof.
  unfold half_trace. cbn [paused_high call projT2].
  rewrite phase_buzzer. destruct z; reflexivity.
Qed.

(** X12: of the 3500 ms the [/on] lambda spends in pauses, each of the
    three lines is high for 2000 ms, from any start state: led1 and the
    buzzer during the first half of each repetition and the closing pause,
    led2 during the second half of each repetition and, left high, the
    closing pause. *)
Theorem on_handler_drives_each_line_high_2000ms (d : device) (fuel : nat) :
  let o := exec (32 + fuel) on_handler d in
  paused_high led1 (trace o) = 2000 /\
  paused_high led2 (trace o) = 2000 /\
  paused_high buzzer (trace o) = 2000 /\
  uptime (final o) - uptime d = 3500.
Proof.
  cbv zeta. rewrite on_handler_run. cbn [trace final].
  unfold on_trace, loop_trace, blink_trace.
  rewrite !paused_high_app.
  rewrite !paused_high_half_led1, !paused_high_half_led2,
    !paused_high_half_buzzer.
  unfold steady_trace, redirect_trace. cbn [paused_high call projT2].
  rewrite steady_led1, steady_led2, steady_buzzer.
  rewrite !blink_pins_phase, phase_led2, uptime_on_device.
  cbn [ms_if_high]. repeat split; lia.
Qed.

(** ** From power-up to the requests *)

Lemma pins_after_setup (d : device) (fuel : nat) :
  pins (final (exec fuel setup d)) = pins d.
Proof.
  rewrite exec_final_pins.
  apply (last_snd_Forall (fun p => p = pins d)); [|reflexivity].
  apply exec_no_write, setup_no_write.
Qed.

Lemma config_server (d1 d2 : device) :
  config d1 = config d2 ->
  access_point d1 = access_point d2 /\ routes d1 = routes d2 /\
  listening d1 = listening d2.
Proof. unfold config. intros [= _ _ _ Ha Hr Hl]. auto. Qed.

(** X13: a start-up whose access point came up, followed by any requests
    served in a row, returns; the server is then still listening on port 80
    with the three routes of [setup] and nothing else added, one response
    was sent per request, and the three lines are at the level the last
    [/on] or [/off] asked for, or as at power-up if there was none. *)
Theorem boot_then_requests (d : device) (cbs : list callback) (fuel : nat)
    (Hok : radio_ok d = true) :
  let o := exec (13 + (32 * length cbs + fuel)) (setup ;; serve_all cbs) d in
  result o = Some tt /\
  pins (final o) = set_lines (last_alarm cbs) (pins d) /\
  listening (final o) = Some server_port /\
  routes (final o) = routes d ++ sketch_routes /\
  access_point (final o) = Some (ssid, password) /\
  length (responses (final o)) = (length (responses d) + length cbs)%nat.
Proof.
  cbv zeta.
  destruct (setup_ap_created_run d 0 Hok) as (Hr & _ & Ha & Hro & Hl).
  destruct (setup_ap_created_state d 0 Hok) as (_ & _ & _ & _ & Hresp).
  change (13 + 0)%nat with 13%nat in *.
  destruct (serve_all_run cbs (final (exec 13 setup d)) fuel)
    as (Hr' & Hp & _ & Hn & Hc).
  rewrite (exec_bind 13 (32 * length cbs + fuel) _ setup d tt Hr)
    by congruence.
  unfold preceded_by. cbn [result final].
  apply config_server in Hc as (Hc1 & Hc2 & Hc3).
  split; [exact Hr'|].
  split; [now rewrite Hp, pins_after_setup|].
  split; [now rewrite Hc3|].
  split; [now rewrite Hc2|].
  split; [now rewrite Hc1|].
  now rewrite Hn, Hresp.
Qed.

Lemma boot_then_requests_witness :
  let cbs := [cb_handleRoot; cb_on; cb_handleRoot; cb_off; cb_on] in
  let o := exec (13 + (32 * length cbs + 0)) (setup ;; serve_all cbs)
             fresh_device in
  result o = Some tt /\
  pins (final o) = set_lines (last_alarm cbs) (pins fresh_device) /\
  listening (final o) = Some server_port /\
  routes (final o) = routes fresh_device ++ sketch_routes /\
  access_point (final o) = Some (ssid, password) /\
  length (responses (final o)) = (length (responses fresh_device) + length cbs)%nat.
Proof.
  apply (boot_then_requests fresh_device
           [cb_handleRoot; cb_on; cb_handleRoot; cb_off; cb_on] 0).
  reflexivity.
Defined.

(** ** No answer before the end of the alarm *)

(** The time a run has spent in [delay] is the sum of its pauses. *)
Lemma exec_uptime {R : Type} (n : nat) :
  forall (t : itree ioE R) (d : device),
    uptime (final (exec n t d)) =
    uptime d + total_delay (List.map fst (trace (exec n t d))).
Proof.
  induction n as [|n IH]; intros t d; rewrite exec_unfold;
    destruct (observe t) as [r|t'|T e k]; cbn [final trace List.map total_delay];
    try lia.
  - apply IH.
  - destruct (handle e d) as [d' x] eqn:Hh.
    cbn [after final trace List.map total_delay fst call projT2].
    rewrite IH.
    destruct e; cbn in Hh; try (injection Hh as <- _; cbn; lia).
    destruct (radio_ok d); injection Hh as <- _; cbn; lia.
Qed.

(** A run that has not called [server.send] has sent nothing. *)
Lemma exec_no_send {R : Type} (n : nat) :
  forall (t : itree ioE R) (d : device),
    existsb is_send (List.map fst (trace (exec n t d))) = false ->
    responses (final (exec n t d)) = responses d.
Proof.
  induction n as [|n IH]; intros t d; rewrite exec_unfold;
    destruct (observe t) as [r|t'|T e k]; try reflexivity.
  - apply IH.
  - destruct (handle e d) as [d' x] eqn:Hh.
    cbn [after final trace List.map existsb fst]. intros H.
    apply orb_false_iff in H as [Hs Hrest].
    rewrite (IH (k x) d' Hrest).
    destruct e; cbn in Hs; try discriminate; cbn in Hh;
      try (injection Hh as <- _; reflexivity).
    destruct (radio_ok d); injection Hh as <- _; reflexivity.
Qed.

(** In the calls of [/on], [server.send] comes after every pause. *)
Lemma send_closes_alarm_sequence (p l : list action) :
  p ++ l = alarm_sequence ++ redirect_calls ->
  existsb is_send p = true ->
  total_delay p = 3500.
Proof.
  intros H Hs.
  unfold alarm_sequence, repetition, first_half, second_half, closing_phase,
    redirect_calls in H.
  cbn [List.app] in H.
  do 29 (destruct p as [|a p];
         [ cbn in Hs; discriminate
         | cbn [List.app] in H; injection H as -> H;
           cbn [existsb is_send projT2 call orb] in Hs ]).
  destruct p; [reflexivity | discriminate].
Qed.

(** X14: the [/on] lambda never answers early: at whatever point of its
    run one looks, either no response has been sent yet, or the whole
    3500 ms of the alarm have elapsed. *)
Theorem on_handler_never_answers_early (d : device) (fuel : nat) :
  let o := exec fuel on_handler d in
  responses (final o) = responses d \/
  uptime (final o) = uptime d + 3500.
Proof.
  cbv zeta.
  destruct (existsb is_send (List.map fst (trace (exec fuel on_handler d))))
    eqn:Hs.
  - right. rewrite exec_uptime. f_equal.
    destruct (exec_prefix fuel 32 on_handler d) as [l Hl].
    rewrite Nat.add_comm, on_handler_run in Hl. cbn [trace] in Hl.
    apply (f_equal (List.map fst)) in Hl. rewrite List.map_app in Hl.
    apply send_closes_alarm_sequence with (List.map fst l); [|exact Hs].
    rewrite <- Hl. reflexivity.
  - left. now apply exec_no_send.
Qed.
